(** * dump_mem: the memory-dump payload of the S7 bootloader hook

    A shallow embedding of [payloads/dump_mem/dump_mem.c] and the properties
    its specification states about it.

    The payload is compiled for a 32-bit ARM core: pointers and [uint32_t]
    are four bytes wide, pointer arithmetic wraps modulo [2^32], and a word
    is assembled from four consecutive bytes in the byte order the device
    shares with the host.  That byte order is not fixed by the C file, so it
    is a parameter of every definition that touches a word.

    Boundaries of the model:
    - device memory is a total map from addresses to bytes; a hardware
      access fault is not an outcome of the model;
    - the global [greeting] is the payload's own object and is kept at the
      value of its initialiser;
    - [UART_protocol_send_single] and [UART_protocol_send_many] are declared
      in [../lib/print.h], outside this file; a call to them is recorded as
      an event, and the bytes they put on the link follow their contract. *)

From Stdlib Require Import ZArith List Lia Bool.
From coqutil Require Import Byte Word.LittleEndianList.
Import ListNotations.
Local Open Scope Z_scope.

(** ** The target: 32-bit addresses, bytes, words *)

Module Target.

Definition ptr_modulus : Z := 2 ^ 32.

(** [p + n] on a pointer: the address wraps at the top of the 32-bit space. *)
Definition ptr_add (p n : Z) : Z := (p + n) mod ptr_modulus.

Inductive endianness : Type := LittleEndian | BigEndian.

(** Device memory, one byte per address. *)
Definition memory : Type := Z -> byte.

(** The [n] bytes at [p], [p+1], ..., in address order. *)
Definition read_bytes (m : memory) (p : Z) (n : nat) : list byte :=
  map (fun i => m (ptr_add p (Z.of_nat i))) (seq 0 n).

(** A word from its bytes as they lie in memory, lowest address first. *)
Definition word_of_bytes (e : endianness) (bs : list byte) : Z :=
  match e with
  | LittleEndian => le_combine bs
  | BigEndian => le_combine (rev bs)
  end.

(** The four bytes of a 32-bit word as the host lays them out. *)
Definition bytes_of_word (e : endianness) (w : Z) : list byte :=
  match e with
  | LittleEndian => le_split 4 w
  | BigEndian => rev (le_split 4 w)
  end.

(** [*(uint32_t * )p] and, pointers being 32 bits wide, [*(char ** )p]. *)
Definition load32 (e : endianness) (m : memory) (p : Z) : Z :=
  word_of_bytes e (read_bytes m p 4).

(** [p[0] = v] for a byte pointer [p]. *)
Definition store8 (m : memory) (p : Z) (v : byte) : memory :=
  fun a => if Z.eqb a p then v else m a.

(** Writing a list of bytes at [p], [p+1], ...; used to lay out inputs. *)
Fixpoint write_bytes (m : memory) (p : Z) (bs : list byte) : memory :=
  match bs with
  | [] => m
  | b :: rest => store8 (write_bytes m (ptr_add p 1) rest) (ptr_add p 0) b
  end.

End Target.
Import Target.

(** ** Observable steps of one invocation *)

Inductive event : Type :=
| EvLoad32 (addr : Z)
| EvSendSingle (buf : list byte) (len : Z)
| EvSendMany (src : Z) (len : Z)
| EvStore8 (addr : Z) (v : byte).

Definition is_load (ev : event) : bool :=
  match ev with EvLoad32 _ => true | _ => false end.

Definition is_transport (ev : event) : bool :=
  match ev with EvSendSingle _ _ | EvSendMany _ _ => true | _ => false end.

Definition is_store (ev : event) : bool :=
  match ev with EvStore8 _ _ => true | _ => false end.

(** The state an invocation runs in: device memory, the steps taken so far
    (oldest first) and the frames put on the serial link (oldest first). *)
Record machine : Type := Machine {
  mem : memory;
  trace : list event;
  wire : list (list byte)
}.

Definition boot (m : memory) : machine :=
  {| mem := m; trace := []; wire := [] |}.

(** ** The payload's global

    The array has no declared size, so it takes the size of its
    initialiser. *)

(** A character array initialised from a string literal holds the
    literal's characters followed by the terminating zero the literal
    always carries. *)
Definition string_literal (chars : list byte) : list byte := chars ++ [Byte.x00].

(** [char greeting[] = "Ok\0";] with 'O' = 0x4f and 'k' = 0x6b. *)
Definition greeting : list byte :=
  string_literal [Byte.x4f; Byte.x6b; Byte.x00].

(** [sizeof(greeting)] *)
Definition sizeof_greeting : Z := Z.of_nat (length greeting).

(** ** A state monad for the payload's statements *)

Definition M (A : Type) : Type := machine -> A * machine.

Definition ret {A} (a : A) : M A := fun s => (a, s).

Definition bind {A B} (c : M A) (k : A -> M B) : M B :=
  fun s => let (a, s') := c s in k a s'.

Notation "x <- c ;; k" := (bind c (fun x => k))
  (at level 61, c at next level, right associativity).
Notation "c ;;; k" := (bind c (fun _ => k))
  (at level 61, right associativity).

Section Payload.

Variable byte_order : endianness.

(** [*((uint32_t * )p)] *)
Definition deref32 (p : Z) : M Z :=
  fun s => (load32 byte_order (mem s) p,
            {| mem := mem s; trace := trace s ++ [EvLoad32 p]; wire := wire s |}).

(** [p[i] = v] *)
Definition assign8 (p i : Z) (v : byte) : M unit :=
  fun s => (tt, {| mem := store8 (mem s) (ptr_add p i) v;
                   trace := trace s ++ [EvStore8 (ptr_add p i) v];
                   wire := wire s |}).

(** Modelled from the spec: [UART_protocol_send_single], declared in
    [../lib/print.h] and not part of this file.  It transmits exactly
    [len] bytes from the caller's buffer as one frame and changes no
    memory. *)
Definition UART_protocol_send_single (buf : list byte) (len : Z) : M unit :=
  fun s => (tt, {| mem := mem s;
                   trace := trace s ++ [EvSendSingle buf len];
                   wire := wire s ++ [firstn (Z.to_nat len) buf] |}).

(** Modelled from the spec: [UART_protocol_send_many], declared in
    [../lib/print.h] and not part of this file.  It transmits [len] bytes
    read directly from address [src] as one frame and changes no memory. *)
Definition UART_protocol_send_many (src len : Z) : M unit :=
  fun s => (tt, {| mem := mem s;
                   trace := trace s ++ [EvSendMany src len];
                   wire := wire s ++ [read_bytes (mem s) src (Z.to_nat len)] |}).

(** [int doit(uint8_t *read_buf, unsigned char *write_buf)] *)
Definition doit (read_buf write_buf : Z) : M Z :=
  (* uint32_t size = *((uint32_t * )(read_buf+8)); *)
  size <- deref32 (ptr_add read_buf 8) ;;
  (* char *tar_addr = *((char ** )(read_buf+4)); *)
  tar_addr <- deref32 (ptr_add read_buf 4) ;;
  (* UART_protocol_send_single(greeting, sizeof(greeting)); *)
  UART_protocol_send_single greeting sizeof_greeting ;;;
  (* UART_protocol_send_many(tar_addr, size); *)
  UART_protocol_send_many tar_addr size ;;;
  (* the source has a second send_single, of greeting2, commented out here *)
  (* write_buf[0] = 0; *)
  assign8 write_buf 0 Byte.x00 ;;;
  (* return 0; *)
  ret 0.

(** The command decoder: the two loads that open [doit], returning
    (target address, byte count). *)
Definition decode (read_buf : Z) : M (Z * Z) :=
  size <- deref32 (ptr_add read_buf 8) ;;
  tar_addr <- deref32 (ptr_add read_buf 4) ;;
  ret (tar_addr, size).

End Payload.

(** ** The entry adapter: registers and the stack *)

(** The core registers the adapter names.  The stack pointer is represented
    by the stack itself: the head of the list is the word at [sp]. *)
Inductive reg : Type :=
| r0 | r1 | r2 | r3 | r4 | r5 | r6 | r7 | r8 | r9 | r10 | r11 | r12 | lr.

Definition reg_eqb (a b : reg) : bool :=
  match a, b with
  | r0, r0 | r1, r1 | r2, r2 | r3, r3 | r4, r4 | r5, r5 | r6, r6
  | r7, r7 | r8, r8 | r9, r9 | r10, r10 | r11, r11 | r12, r12 | lr, lr => true
  | _, _ => false
  end.

Definition regfile : Type := reg -> Z.

Definition set_reg (rf : regfile) (r : reg) (v : Z) : regfile :=
  fun x => if reg_eqb x r then v else rf x.

Record cpu : Type := Cpu {
  regs : regfile;
  stack : list Z
}.

(** The register list [{r2-r12, lr}], lowest register first. *)
Definition saved_regs : list reg :=
  [r2; r3; r4; r5; r6; r7; r8; r9; r10; r11; r12; lr].

(** [stmfd sp!, {...}]: the listed registers are stored below [sp], the
    lowest-numbered one at the lowest address, and [sp] moves down. *)
Definition stmfd_sp (rl : list reg) (c : cpu) : cpu :=
  {| regs := regs c; stack := map (regs c) rl ++ stack c |}.

Fixpoint load_regs (rl : list reg) (ws : list Z) (rf : regfile) : regfile :=
  match rl, ws with
  | r :: rl', w :: ws' => load_regs rl' ws' (set_reg rf r w)
  | _, _ => rf
  end.

(** [ldmfd sp!, {...}]: the listed registers are loaded from [sp] upwards
    and [sp] moves up past them. *)
Definition ldmfd_sp (rl : list reg) (c : cpu) : cpu :=
  {| regs := load_regs rl (stack c) (regs c);
     stack := skipn (length rl) (stack c) |}.

(** [adr rd, label] *)
Definition adr (rd : reg) (label : Z) (c : cpu) : cpu :=
  {| regs := set_reg (regs c) rd label; stack := stack c |}.

Section Entry.

Variable byte_order : endianness.

(** The address the label [_start] is linked at. *)
Variable start_addr : Z.

(** What the compiled body of [doit], and the transport routines under
    it, leave in the registers.  Nothing is assumed about it: [doit] is
    declared [noinline], so it is reached by a call, and a callee may
    leave any value in any register.  It returns with the stack as it
    found it. *)
Variable callee_regs : regfile -> regfile.

(** The call [doit(read_buf, write_buf)] seen from the caller's registers:
    the result comes back in [r0]. *)
Definition call_doit (read_buf write_buf : Z) (c : cpu) : M (Z * cpu) :=
  res <- doit byte_order read_buf write_buf ;;
  ret (res, {| regs := set_reg (callee_regs (regs c)) r0 res;
               stack := stack c |}).

(** [int _start(unsigned char *read_buf, unsigned char *write_buf)] *)
Definition _start (read_buf write_buf : Z) (c : cpu) : M (Z * cpu) :=
  (* __asm__("stmfd sp!, {r2-r12, lr}"); *)
  let c := stmfd_sp saved_regs c in
  (* __asm__("adr r9, _start"); *)
  let c := adr r9 start_addr c in
  (* int res = doit(read_buf, write_buf); *)
  rc <- call_doit read_buf write_buf c ;;
  let (res, c) := (rc : Z * cpu) in
  (* __asm("ldmfd sp!, {r2-r12, lr}"); *)
  let c := ldmfd_sp saved_regs c in
  (* return res; *)
  ret (res, c).

End Entry.

(** ** Reading a run *)

(** The target address and the byte count a command buffer holds: the
    words at offsets 4 and 8. *)
Definition cmd_addr (e : endianness) (m : memory) (read_buf : Z) : Z :=
  load32 e m (ptr_add read_buf 4).

Definition cmd_size (e : endianness) (m : memory) (read_buf : Z) : Z :=
  load32 e m (ptr_add read_buf 8).

(** The state [doit] leaves behind when started on memory [m]. *)
Definition after_doit (e : endianness) (m : memory) (read_buf write_buf : Z)
  : machine :=
  snd (doit e read_buf write_buf (boot m)).

Definition is_send_many (ev : event) : bool :=
  match ev with EvSendMany _ _ => true | _ => false end.

Definition transport_calls (tr : list event) : list event :=
  filter is_transport tr.

Definition stores (tr : list event) : list event :=
  filter is_store tr.

(** The arguments of the first transport call, when it is a
    [send_single]. *)
Definition greeting_call (tr : list event) : option (list byte * Z) :=
  match transport_calls tr with
  | EvSendSingle buf len :: _ => Some (buf, len)
  | _ => None
  end.

(** The addresses loaded before the first transport call. *)
Fixpoint loads_before_transport (tr : list event) : list Z :=
  match tr with
  | [] => []
  | EvLoad32 a :: rest => a :: loads_before_transport rest
  | ev :: rest =>
      if is_transport ev then [] else loads_before_transport rest
  end.

(** No load follows a transport call. *)
Fixpoint no_load_after_transport (tr : list event) : bool :=
  match tr with
  | [] => true
  | ev :: rest =>
      if is_transport ev
      then forallb (fun x => negb (is_load x)) rest
      else no_load_after_transport rest
  end.

(** The steps taken before the first store. *)
Fixpoint before_first_store (tr : list event) : list event :=
  match tr with
  | [] => []
  | ev :: rest => if is_store ev then [] else ev :: before_first_store rest
  end.

(** The bytes stored by a run, in order. *)
Definition stored_values (tr : list event) : list byte :=
  flat_map (fun ev => match ev with EvStore8 _ v => [v] | _ => [] end) tr.

(** ** Command buffers as the host writes them

    Memory [m] with a command buffer laid out at [read_buf]: four bytes the
    payload does not use, then the target address, then the byte count. *)
Definition layout_command (e : endianness) (m : memory) (read_buf : Z)
    (header : list byte) (A N : Z) : memory :=
  write_bytes m read_buf (header ++ bytes_of_word e A ++ bytes_of_word e N).

(** ** A worked invocation

    The command asks for the four bytes [DE AD BE EF] at [0x1000]; the
    command buffer is at [0x2000] and the response buffer at [0x3000].
    Everything else in memory is [0xFF]. *)
Definition example_read_buf : Z := 0x2000.
Definition example_write_buf : Z := 0x3000.

Definition example_header : list byte :=
  [Byte.x11; Byte.x22; Byte.x33; Byte.x44].

Definition example_mem (e : endianness) : memory :=
  layout_command e
    (write_bytes (fun _ => Byte.xff) 0x1000
                 [Byte.xde; Byte.xad; Byte.xbe; Byte.xef])
    example_read_buf example_header 0x1000 4.

(** The worked invocation again, with another first command byte and
    another byte where the status will go. *)
Definition example_mem_other (e : endianness) : memory :=
  store8 (store8 (example_mem e) example_read_buf Byte.x99)
         example_write_buf Byte.x77.

(** A command with address zero and the largest count a word can hold. *)
Definition example_mem_huge (e : endianness) : memory :=
  layout_command e (fun _ => Byte.xff) example_read_buf example_header
                 0 0xFFFFFFFF.

(** The same command with a count of zero. *)
Definition example_mem_empty (e : endianness) : memory :=
  layout_command e (fun _ => Byte.xff) example_read_buf example_header
                 0x1000 0.

(** Caller registers poisoned with distinct values, and a callee that
    overwrites every register. *)
Definition example_regs : regfile :=
  fun r => match r with
           | r0 => example_read_buf | r1 => example_write_buf
           | r2 => 0xA2 | r3 => 0xA3 | r4 => 0xA4 | r5 => 0xA5 | r6 => 0xA6
           | r7 => 0xA7 | r8 => 0xA8 | r9 => 0xA9 | r10 => 0xAA
           | r11 => 0xAB | r12 => 0xAC | lr => 0x8000
           end.

Definition example_cpu : cpu :=
  {| regs := example_regs; stack := [0x51; 0x52] |}.

Definition scrub_regs : regfile -> regfile := fun _ _ => 0xDEAD.

(** The greeting as the specification words it: two characters and one
    zero byte, sent with length 3. *)
Definition greeting_as_specified : list byte := [Byte.x4f; Byte.x6b; Byte.x00].

Definition greeting_sent_as (frame : list byte) (len : Z) (s : machine) : Prop :=
  hd_error (wire s) = Some frame /\
  exists buf, greeting_call (trace s) = Some (buf, len).

(** ** Invoking the payload again

    The hook serves one request at a time; a second request with the same
    two buffers runs [doit] on the memory the first run left. *)
Definition invoke_twice (e : endianness) (read_buf write_buf : Z) : M Z :=
  doit e read_buf write_buf ;;; doit e read_buf write_buf.

(** A command that asks for the four bytes starting at the response
    buffer itself. *)
Definition example_mem_self (e : endianness) : memory :=
  layout_command e (fun _ => Byte.xff) example_read_buf example_header
                 example_write_buf 4.

(** * Properties *)

(** ** Addresses and bytes *)

Lemma ptr_modulus_pos : 0 < ptr_modulus.
Proof. unfold ptr_modulus. lia. Qed.

Lemma ptr_add_range (p n : Z) : 0 <= ptr_add p n < ptr_modulus.
Proof. unfold ptr_add. apply Z.mod_pos_bound, ptr_modulus_pos. Qed.

Lemma ptr_add_add (p a b : Z) : ptr_add (ptr_add p a) b = ptr_add p (a + b).
Proof.
  unfold ptr_add.
  rewrite Zplus_mod_idemp_l. f_equal. lia.
Qed.

(** Two offsets less than one lap apart name different addresses. *)
Lemma ptr_add_neq (p i j : Z) :
  0 <= i < j -> j < ptr_modulus -> ptr_add p i <> ptr_add p j.
Proof.
  intros Hij Hj Heq. unfold ptr_add in Heq.
  pose proof ptr_modulus_pos as Hpos.
  assert (Hd : (j - i) mod ptr_modulus = 0).
  { replace (j - i) with ((p + j) - (p + i)) by lia.
    rewrite Zminus_mod, Heq, Z.sub_diag. now apply Z.mod_0_l, Z.neq_sym, Z.lt_neq. }
  rewrite Z.mod_small in Hd by lia. lia.
Qed.

Lemma read_bytes_length (m : memory) (p : Z) (n : nat) :
  length (read_bytes m p n) = n.
Proof. unfold read_bytes. now rewrite length_map, length_seq. Qed.

Lemma read_bytes_nth (m : memory) (p : Z) (n i : nat) :
  (i < n)%nat ->
  nth_error (read_bytes m p n) i = Some (m (ptr_add p (Z.of_nat i))).
Proof.
  intros Hi. unfold read_bytes.
  rewrite nth_error_map, nth_error_seq.
  destruct (Nat.ltb_spec i n) as [_ | Hge]; [reflexivity | lia].
Qed.

(** [read_bytes] sees nothing but the bytes of the range it reads. *)
Lemma read_bytes_ext (m1 m2 : memory) (p1 p2 : Z) (n : nat) :
  (forall i, 0 <= i < Z.of_nat n -> m1 (ptr_add p1 i) = m2 (ptr_add p2 i)) ->
  read_bytes m1 p1 n = read_bytes m2 p2 n.
Proof.
  intros H. unfold read_bytes. apply map_ext_in.
  intros i Hi. apply in_seq in Hi. apply H. lia.
Qed.

Lemma load32_ext (e : endianness) (m1 m2 : memory) (p1 p2 : Z) :
  (forall i, 0 <= i < 4 -> m1 (ptr_add p1 i) = m2 (ptr_add p2 i)) ->
  load32 e m1 p1 = load32 e m2 p2.
Proof.
  intros H. unfold load32. f_equal. now apply read_bytes_ext.
Qed.

Lemma word_of_bytes_range (e : endianness) (bs : list byte) :
  0 <= word_of_bytes e bs < 2 ^ (8 * Z.of_nat (length bs)).
Proof.
  destruct e; simpl.
  - apply le_combine_bound.
  - rewrite <- length_rev. apply le_combine_bound.
Qed.

Lemma load32_range (e : endianness) (m : memory) (p : Z) :
  0 <= load32 e m p < ptr_modulus.
Proof.
  unfold load32.
  pose proof (word_of_bytes_range e (read_bytes m p 4)) as H.
  rewrite read_bytes_length in H. exact H.
Qed.

(** Laying a word out in the host's byte order and reading it back. *)
Lemma word_of_bytes_of_word (e : endianness) (w : Z) :
  word_of_bytes e (bytes_of_word e w) = w mod ptr_modulus.
Proof.
  destruct e; cbv [word_of_bytes bytes_of_word].
  - now rewrite le_combine_split.
  - now rewrite rev_involutive, le_combine_split.
Qed.

Lemma bytes_of_word_length (e : endianness) (w : Z) :
  length (bytes_of_word e w) = 4%nat.
Proof. destruct e; reflexivity. Qed.

Lemma load32_of_bytes (e : endianness) (m : memory) (p w : Z) :
  0 <= w < ptr_modulus ->
  read_bytes m p 4 = bytes_of_word e w ->
  load32 e m p = w.
Proof.
  intros Hw Hb. unfold load32. rewrite Hb, word_of_bytes_of_word.
  now apply Z.mod_small.
Qed.

Lemma store8_same (m : memory) (p : Z) (v : byte) : store8 m p v p = v.
Proof. unfold store8. now rewrite Z.eqb_refl. Qed.

Lemma store8_other (m : memory) (p a : Z) (v : byte) :
  a <> p -> store8 m p v a = m a.
Proof. intros H. unfold store8. now apply Z.eqb_neq in H as ->. Qed.

(** A buffer of at most one lap of the address space, once written, is read
    back byte for byte. *)
Lemma write_bytes_at (bs : list byte) : forall (m : memory) (p : Z) (i : nat),
  Z.of_nat (length bs) <= ptr_modulus ->
  (i < length bs)%nat ->
  Some (write_bytes m p bs (ptr_add p (Z.of_nat i))) = nth_error bs i.
Proof.
  induction bs as [| b rest IH]; intros m p i Hlen Hi; simpl in *.
  - lia.
  - destruct i as [| i].
    + simpl. now rewrite store8_same.
    + rewrite store8_other.
      * replace (Z.of_nat (S i)) with (1 + Z.of_nat i) by lia.
        rewrite <- ptr_add_add. apply IH; lia.
      * apply not_eq_sym, ptr_add_neq; lia.
Qed.

Lemma read_write_bytes (m : memory) (p : Z) (pre bs post : list byte) :
  Z.of_nat (length (pre ++ bs ++ post)) <= ptr_modulus ->
  read_bytes (write_bytes m p (pre ++ bs ++ post))
             (ptr_add p (Z.of_nat (length pre))) (length bs) = bs.
Proof.
  intros Hlen. apply nth_error_ext. intros i.
  destruct (Nat.lt_ge_cases i (length bs)) as [Hi | Hi].
  - rewrite read_bytes_nth by assumption.
    rewrite ptr_add_add, <- Nat2Z.inj_add.
    rewrite !length_app in Hlen.
    rewrite write_bytes_at by (rewrite ?length_app; lia).
    rewrite nth_error_app2 by lia.
    replace (length pre + i - length pre)%nat with i by lia.
    now rewrite nth_error_app1.
  - transitivity (@None byte); [| symmetry]; apply nth_error_None;
      rewrite ?read_bytes_length; exact Hi.
Qed.

(** A laid-out command buffer holds its two fields where the payload
    looks for them. *)
Lemma layout_command_fields (e : endianness) (m : memory) (read_buf : Z)
    (header : list byte) (A N : Z) :
  length header = 4%nat ->
  read_bytes (layout_command e m read_buf header A N) (ptr_add read_buf 4) 4
    = bytes_of_word e A /\
  read_bytes (layout_command e m read_buf header A N) (ptr_add read_buf 8) 4
    = bytes_of_word e N.
Proof.
  intros Hh. unfold layout_command. split.
  - pose proof (read_write_bytes m read_buf header
                  (bytes_of_word e A) (bytes_of_word e N)) as H.
    rewrite !length_app, !bytes_of_word_length, Hh in H.
    apply H. unfold ptr_modulus. lia.
  - pose proof (read_write_bytes m read_buf (header ++ bytes_of_word e A)
                  (bytes_of_word e N) []) as H.
    rewrite !length_app, !bytes_of_word_length, Hh in H.
    rewrite app_nil_r, <- app_assoc in H.
    apply H. unfold ptr_modulus. simpl. lia.
Qed.

(** ** One run of [doit] *)

Section Run.

Variable e : endianness.

(** The whole effect of [doit] on any starting state. *)
Lemma doit_run (read_buf write_buf : Z) (s : machine) :
  doit e read_buf write_buf s =
  (0, {| mem := store8 (mem s) (ptr_add write_buf 0) Byte.x00;
         trace := trace s ++
           [EvLoad32 (ptr_add read_buf 8);
            EvLoad32 (ptr_add read_buf 4);
            EvSendSingle greeting sizeof_greeting;
            EvSendMany (cmd_addr e (mem s) read_buf) (cmd_size e (mem s) read_buf);
            EvStore8 (ptr_add write_buf 0) Byte.x00];
         wire := wire s ++
           [greeting;
            read_bytes (mem s) (cmd_addr e (mem s) read_buf)
                       (Z.to_nat (cmd_size e (mem s) read_buf))] |}).
Proof.
  unfold doit, bind, deref32, UART_protocol_send_single,
    UART_protocol_send_many, assign8, ret, cmd_addr, cmd_size.
  cbn [mem trace wire].
  repeat rewrite <- app_assoc. reflexivity.
Qed.

Lemma decode_run (read_buf : Z) (s : machine) :
  decode e read_buf s =
  ((cmd_addr e (mem s) read_buf, cmd_size e (mem s) read_buf),
   {| mem := mem s;
      trace := trace s ++
        [EvLoad32 (ptr_add read_buf 8); EvLoad32 (ptr_add read_buf 4)];
      wire := wire s |}).
Proof.
  unfold decode, bind, deref32, ret, cmd_addr, cmd_size.
  cbn [mem trace wire].
  repeat rewrite <- app_assoc. reflexivity.
Qed.

End Run.

Example example_decodes :
  cmd_addr BigEndian (example_mem BigEndian) example_read_buf = 0x1000 /\
  cmd_size BigEndian (example_mem BigEndian) example_read_buf = 4 /\
  cmd_addr LittleEndian (example_mem LittleEndian) example_read_buf = 0x1000.
Proof. repeat split; vm_compute; reflexivity. Qed.

Example example_wire :
  wire (after_doit LittleEndian (example_mem LittleEndian)
                   example_read_buf example_write_buf) =
  [[Byte.x4f; Byte.x6b; Byte.x00; Byte.x00];
   [Byte.xde; Byte.xad; Byte.xbe; Byte.xef]].
Proof. vm_compute. reflexivity. Qed.

Lemma after_doit_eq (e : endianness) (m : memory) (read_buf write_buf : Z) :
  after_doit e m read_buf write_buf =
  {| mem := store8 m (ptr_add write_buf 0) Byte.x00;
     trace :=
       [EvLoad32 (ptr_add read_buf 8);
        EvLoad32 (ptr_add read_buf 4);
        EvSendSingle greeting sizeof_greeting;
        EvSendMany (cmd_addr e m read_buf) (cmd_size e m read_buf);
        EvStore8 (ptr_add write_buf 0) Byte.x00];
     wire :=
       [greeting;
        read_bytes m (cmd_addr e m read_buf)
                   (Z.to_nat (cmd_size e m read_buf))] |}.
Proof. unfold after_doit. now rewrite doit_run. Qed.

Lemma cmd_size_range (e : endianness) (m : memory) (read_buf : Z) :
  0 <= cmd_size e m read_buf < ptr_modulus.
Proof. apply load32_range. Qed.

Lemma cmd_addr_range (e : endianness) (m : memory) (read_buf : Z) :
  0 <= cmd_addr e m read_buf < ptr_modulus.
Proof. apply load32_range. Qed.

(** Every pair of 32-bit words is a command the decoder hands back as it
    is. *)
Lemma every_command_decodes (e : endianness) (m : memory) (read_buf : Z)
    (header : list byte) (A N : Z) :
  length header = 4%nat ->
  0 <= A < ptr_modulus ->
  0 <= N < ptr_modulus ->
  fst (decode e read_buf (boot (layout_command e m read_buf header A N)))
  = (A, N).
Proof.
  intros Hh HA HN.
  destruct (layout_command_fields e m read_buf header A N Hh) as [FA FN].
  rewrite decode_run. cbn [fst mem boot]. unfold cmd_addr, cmd_size.
  f_equal; now apply load32_of_bytes.
Qed.

(** ** The claims *)

(** C1.  Whatever the command buffer holds, with address [A] in bytes
    [4,8) and count [N] in bytes [8,12), [doit] makes exactly two transport
    calls, in this order: [send_single] with the greeting, then
    [send_many A N].  On the link that is the greeting frame followed by one
    frame of exactly [N] bytes, the [i]-th of which is the byte found at
    address [A + i] when the payload was invoked; there is no third frame. *)
Theorem doit_sends_greeting_then_dump
  (e : endianness) (m : memory) (read_buf write_buf : Z) :
  let A := cmd_addr e m read_buf in
  let N := cmd_size e m read_buf in
  let s := after_doit e m read_buf write_buf in
  transport_calls (trace s) =
    [EvSendSingle greeting sizeof_greeting; EvSendMany A N] /\
  (exists bulk,
     wire s = [greeting; bulk] /\
     Z.of_nat (length bulk) = N /\
     forall i, (i < length bulk)%nat ->
               nth_error bulk i = Some (m (ptr_add A (Z.of_nat i)))).
Proof.
  intros A N s. subst s. rewrite after_doit_eq. cbn [trace wire].
  split; [reflexivity |].
  exists (read_bytes m A (Z.to_nat N)). split; [reflexivity |].
  rewrite read_bytes_length. split.
  - apply Z2Nat.id, cmd_size_range.
  - intros i Hi. now apply read_bytes_nth.
Qed.

(** C2, as the specification states it, fails: on the worked invocation the
    greeting frame is not the three bytes ['O','k',0] and [send_single] is
    not passed length 3. *)
Lemma greeting_not_three_bytes :
  ~ greeting_sent_as greeting_as_specified 3
      (after_doit LittleEndian (example_mem LittleEndian)
                  example_read_buf example_write_buf) /\
  ~ (exists buf,
       greeting_call
         (trace (after_doit LittleEndian (example_mem LittleEndian)
                            example_read_buf example_write_buf))
       = Some (buf, 3)).
Proof.
  split.
  - intros [Hframe _]. rewrite after_doit_eq in Hframe.
    cbn [wire hd_error] in Hframe. discriminate Hframe.
  - intros [buf Hcall]. rewrite after_doit_eq in Hcall.
    cbn in Hcall. discriminate Hcall.
Qed.

(** C2, amended.  The greeting is the array [char greeting[] = "Ok\0"]:
    the three characters written in the literal and the literal's own
    terminating zero.  On every invocation the first transport call is
    [send_single] with that array and [sizeof(greeting)] = 4, and the first
    frame on the link is the four bytes ['O','k',0,0]. *)
Theorem greeting_is_four_bytes
  (e : endianness) (m : memory) (read_buf write_buf : Z) :
  let s := after_doit e m read_buf write_buf in
  greeting = [Byte.x4f; Byte.x6b; Byte.x00; Byte.x00] /\
  sizeof_greeting = 4 /\
  greeting_call (trace s) = Some (greeting, 4) /\
  hd_error (wire s) = Some [Byte.x4f; Byte.x6b; Byte.x00; Byte.x00] /\
  greeting_sent_as [Byte.x4f; Byte.x6b; Byte.x00; Byte.x00] 4 s.
Proof.
  intros s. subst s. unfold greeting_sent_as. rewrite after_doit_eq.
  cbn [trace wire hd_error].
  repeat split; try reflexivity.
  exists greeting. reflexivity.
Qed.

(** C3.  The decoder returns the word at offset 4 as the address and the
    word at offset 8 as the count, whatever they are: for every address [A]
    and count [N] a 32-bit word can hold (zero and the largest count
    included), a command buffer carrying them decodes to exactly [(A, N)],
    [doit] passes exactly these to [send_many] and returns 0; the only
    loads [doit] makes are the words at offsets 8 and 4; and the result is
    the same for any memory that agrees on bytes [4,12) of the buffer, so
    bytes [0,4) play no part. *)
Theorem decode_passes_fields_through
  (e : endianness) (m : memory) (read_buf write_buf A N : Z) :
  0 <= A < ptr_modulus ->
  0 <= N < ptr_modulus ->
  read_bytes m (ptr_add read_buf 4) 4 = bytes_of_word e A ->
  read_bytes m (ptr_add read_buf 8) 4 = bytes_of_word e N ->
  fst (decode e read_buf (boot m)) = (A, N) /\
  transport_calls (trace (after_doit e m read_buf write_buf)) =
    [EvSendSingle greeting sizeof_greeting; EvSendMany A N] /\
  fst (doit e read_buf write_buf (boot m)) = 0 /\
  filter is_load (trace (after_doit e m read_buf write_buf)) =
    [EvLoad32 (ptr_add read_buf 8); EvLoad32 (ptr_add read_buf 4)] /\
  (forall m' : memory,
      (forall i, 4 <= i < 12 ->
                 m' (ptr_add read_buf i) = m (ptr_add read_buf i)) ->
      fst (decode e read_buf (boot m')) = (A, N)).
Proof.
  intros HA HN HbA HbN.
  assert (EA : cmd_addr e m read_buf = A)
    by (unfold cmd_addr; now apply load32_of_bytes).
  assert (EN : cmd_size e m read_buf = N)
    by (unfold cmd_size; now apply load32_of_bytes).
  rewrite after_doit_eq, doit_run, decode_run. cbn [fst trace mem boot].
  rewrite EA, EN. repeat split.
  intros m' Hagree. rewrite decode_run. cbn [fst mem boot].
  rewrite <- EA, <- EN. unfold cmd_addr, cmd_size.
  f_equal; apply load32_ext; intros i Hi; rewrite !ptr_add_add;
    apply Hagree; lia.
Qed.

Lemma decode_passes_fields_through_witness :
  fst (decode BigEndian example_read_buf (boot (example_mem_huge BigEndian)))
    = (0, 0xFFFFFFFF) /\
  transport_calls
    (trace (after_doit BigEndian (example_mem_huge BigEndian)
                       example_read_buf example_write_buf)) =
    [EvSendSingle greeting sizeof_greeting; EvSendMany 0 0xFFFFFFFF] /\
  fst (doit BigEndian example_read_buf example_write_buf
            (boot (example_mem_huge BigEndian))) = 0 /\
  filter is_load
    (trace (after_doit BigEndian (example_mem_huge BigEndian)
                       example_read_buf example_write_buf)) =
    [EvLoad32 (ptr_add example_read_buf 8);
     EvLoad32 (ptr_add example_read_buf 4)] /\
  (forall m' : memory,
      (forall i, 4 <= i < 12 ->
                 m' (ptr_add example_read_buf i)
                 = example_mem_huge BigEndian (ptr_add example_read_buf i)) ->
      fst (decode BigEndian example_read_buf (boot m')) = (0, 0xFFFFFFFF)).
Proof.
  apply (decode_passes_fields_through BigEndian (example_mem_huge BigEndian)
           example_read_buf example_write_buf 0 0xFFFFFFFF).
  - unfold ptr_modulus. lia.
  - unfold ptr_modulus. lia.
  - vm_compute. reflexivity.
  - vm_compute. reflexivity.
Defined.

(** C4.  In every invocation the two command fields, the words at offsets
    8 and 4, are both loaded before the first transport call, and no load
    of the command follows a transport call. *)
Theorem command_read_before_transport
  (e : endianness) (m : memory) (read_buf write_buf : Z) :
  let tr := trace (after_doit e m read_buf write_buf) in
  In (ptr_add read_buf 4) (loads_before_transport tr) /\
  In (ptr_add read_buf 8) (loads_before_transport tr) /\
  no_load_after_transport tr = true /\
  transport_calls tr <> [].
Proof.
  intros tr. subst tr. rewrite after_doit_eq. cbn.
  repeat split; auto. discriminate.
Qed.

(** C5.  In every invocation exactly one store is made; it writes 0 to
    offset 0 of the response buffer; [send_many] has been called before it;
    and afterwards memory differs from the memory at invocation at that one
    byte only. *)
Theorem status_byte_written_once_after_dump
  (e : endianness) (m : memory) (read_buf write_buf : Z) :
  let s := after_doit e m read_buf write_buf in
  stores (trace s) = [EvStore8 (ptr_add write_buf 0) Byte.x00] /\
  existsb is_send_many (before_first_store (trace s)) = true /\
  mem s (ptr_add write_buf 0) = Byte.x00 /\
  (forall a, a <> ptr_add write_buf 0 -> mem s a = m a).
Proof.
  intros s. subst s. rewrite after_doit_eq. cbn [trace mem].
  repeat split.
  - apply store8_same.
  - intros a Ha. now apply store8_other.
Qed.

(** C6.  When the count is zero, [send_many] is called with length 0 and
    its frame is empty, while the greeting is still sent first and the
    status byte is still written with 0. *)
Theorem zero_count_sends_empty_frame
  (e : endianness) (m : memory) (read_buf write_buf : Z) :
  cmd_size e m read_buf = 0 ->
  let s := after_doit e m read_buf write_buf in
  transport_calls (trace s) =
    [EvSendSingle greeting sizeof_greeting;
     EvSendMany (cmd_addr e m read_buf) 0] /\
  wire s = [greeting; []] /\
  stores (trace s) = [EvStore8 (ptr_add write_buf 0) Byte.x00] /\
  mem s (ptr_add write_buf 0) = Byte.x00.
Proof.
  intros HN s. subst s. rewrite after_doit_eq. cbn [trace wire mem].
  rewrite HN. repeat split. apply store8_same.
Qed.

Lemma zero_count_sends_empty_frame_witness :
  let s := after_doit LittleEndian (example_mem_empty LittleEndian)
                      example_read_buf example_write_buf in
  transport_calls (trace s) =
    [EvSendSingle greeting sizeof_greeting;
     EvSendMany (cmd_addr LittleEndian (example_mem_empty LittleEndian)
                          example_read_buf) 0] /\
  wire s = [greeting; []] /\
  stores (trace s) = [EvStore8 (ptr_add example_write_buf 0) Byte.x00] /\
  mem s (ptr_add example_write_buf 0) = Byte.x00.
Proof.
  apply (zero_count_sends_empty_frame LittleEndian
           (example_mem_empty LittleEndian) example_read_buf example_write_buf).
  vm_compute. reflexivity.
Defined.

(** C7.  [doit] returns 0 from every starting state and for every pair of
    buffers, and [_start] returns what [doit] returned, so 0 as well, left
    in [r0]. *)
Theorem status_code_always_zero
  (e : endianness) (start_addr : Z) (callee_regs : regfile -> regfile)
  (read_buf write_buf : Z) (c : cpu) (s : machine) :
  fst (doit e read_buf write_buf s) = 0 /\
  fst (fst (_start e start_addr callee_regs read_buf write_buf c s)) = 0 /\
  regs (snd (fst (_start e start_addr callee_regs read_buf write_buf c s))) r0
    = 0.
Proof.
  unfold _start, call_doit, bind, ret. rewrite doit_run. cbn [fst snd].
  repeat split.
Qed.

(** C8.  Decoding changes neither memory nor the link, and decoding the
    same buffer a second time returns the same (address, count) pair. *)
Theorem decode_is_pure (e : endianness) (read_buf : Z) (s : machine) :
  let r1 := decode e read_buf s in
  let r2 := decode e read_buf (snd r1) in
  fst r1 = fst r2 /\
  mem (snd r1) = mem s /\ wire (snd r1) = wire s /\
  mem (snd r2) = mem s /\ wire (snd r2) = wire s /\
  stores (trace (snd r2)) = stores (trace s).
Proof.
  intros r1 r2. subst r1 r2. rewrite !decode_run. cbn [fst snd mem wire trace].
  repeat split. unfold stores.
  rewrite !filter_app. cbn. now rewrite !app_nil_r.
Qed.

(** ** Saving and restoring registers *)

Lemma reg_eqb_eq (a b : reg) : reg_eqb a b = true -> a = b.
Proof. destruct a, b; simpl; intros H; (reflexivity || discriminate H). Qed.

Lemma reg_eqb_refl (a : reg) : reg_eqb a a = true.
Proof. now destruct a. Qed.

(** Registers loaded from the words that were stored from [rf] hold their
    [rf] values again; a register outside the list keeps its value if that
    was already its [rf] value. *)
Lemma load_regs_restores (rf : regfile) (stk : list Z) (r : reg) :
  forall (rl : list reg) (rf' : regfile),
    In r rl \/ rf' r = rf r ->
    load_regs rl (map rf rl ++ stk) rf' r = rf r.
Proof.
  induction rl as [| a rl IH]; intros rf' H; simpl.
  - destruct H as [[] | H]. destruct stk; exact H.
  - apply IH. unfold set_reg.
    destruct (reg_eqb r a) eqn:Era.
    + right. apply reg_eqb_eq in Era. now subst.
    + destruct H as [[Ha | Hin] | Hrf].
      * subst a. now rewrite reg_eqb_refl in Era.
      * now left.
      * now right.
Qed.

Lemma skipn_saved (rf : regfile) (rl : list reg) (stk : list Z) :
  skipn (length rl) (map rf rl ++ stk) = stk.
Proof.
  rewrite skipn_app, length_map, Nat.sub_diag.
  rewrite skipn_all2 by (rewrite length_map; lia).
  reflexivity.
Qed.

(** C9.  Whatever the caller holds in [r2]-[r12] and [lr], and whatever the
    called [doit] leaves in the registers, each of those registers holds
    its old value again when [_start] returns, and the stack is as the
    caller left it. *)
Theorem start_preserves_registers
  (e : endianness) (start_addr : Z) (callee_regs : regfile -> regfile)
  (read_buf write_buf : Z) (c : cpu) (s : machine) :
  let c' := snd (fst (_start e start_addr callee_regs read_buf write_buf c s)) in
  (forall r, In r [r2; r3; r4; r5; r6; r7; r8; r9; r10; r11; r12; lr] ->
             regs c' r = regs c r) /\
  stack c' = stack c.
Proof.
  intros c'. subst c'.
  unfold _start, call_doit, bind, ret. rewrite doit_run.
  cbn [fst snd]. unfold ldmfd_sp, adr, stmfd_sp. cbn [regs stack].
  split.
  - intros r Hr. apply load_regs_restores. now left.
  - apply skipn_saved.
Qed.

(** C10.  Two invocations whose command buffers agree on bytes [4,12) and
    whose memories agree on the range to dump make the same transport
    calls, put the same frames on the link, store the same status byte and
    return the same value, whatever else their memories hold (bytes [0,4)
    of the command and the whole response buffer included) and wherever
    their buffers lie. *)
Theorem behaviour_depends_on_command_and_range_only
  (e : endianness) (m1 m2 : memory)
  (read_buf1 write_buf1 read_buf2 write_buf2 : Z) :
  (forall i, 4 <= i < 12 ->
             m1 (ptr_add read_buf1 i) = m2 (ptr_add read_buf2 i)) ->
  (forall i, 0 <= i < cmd_size e m1 read_buf1 ->
             m1 (ptr_add (cmd_addr e m1 read_buf1) i)
             = m2 (ptr_add (cmd_addr e m1 read_buf1) i)) ->
  let s1 := after_doit e m1 read_buf1 write_buf1 in
  let s2 := after_doit e m2 read_buf2 write_buf2 in
  transport_calls (trace s1) = transport_calls (trace s2) /\
  wire s1 = wire s2 /\
  stored_values (trace s1) = stored_values (trace s2) /\
  mem s1 (ptr_add write_buf1 0) = mem s2 (ptr_add write_buf2 0) /\
  fst (doit e read_buf1 write_buf1 (boot m1))
  = fst (doit e read_buf2 write_buf2 (boot m2)).
Proof.
  intros Hcmd Hrange s1 s2. subst s1 s2.
  assert (EA : cmd_addr e m1 read_buf1 = cmd_addr e m2 read_buf2).
  { unfold cmd_addr. apply load32_ext. intros i Hi.
    rewrite !ptr_add_add. apply Hcmd. lia. }
  assert (EN : cmd_size e m1 read_buf1 = cmd_size e m2 read_buf2).
  { unfold cmd_size. apply load32_ext. intros i Hi.
    rewrite !ptr_add_add. apply Hcmd. lia. }
  assert (EB : read_bytes m1 (cmd_addr e m1 read_buf1)
                          (Z.to_nat (cmd_size e m1 read_buf1))
               = read_bytes m2 (cmd_addr e m1 read_buf1)
                            (Z.to_nat (cmd_size e m1 read_buf1))).
  { apply read_bytes_ext. intros i Hi. apply Hrange.
    pose proof (cmd_size_range e m1 read_buf1). lia. }
  rewrite !after_doit_eq, !doit_run. cbn [trace wire mem fst].
  rewrite !store8_same, <- EA, <- EN, EB. repeat split.
Qed.

Lemma behaviour_depends_on_command_and_range_only_witness :
  let s1 := after_doit LittleEndian (example_mem LittleEndian)
                       example_read_buf example_write_buf in
  let s2 := after_doit LittleEndian (example_mem_other LittleEndian)
                       example_read_buf example_write_buf in
  transport_calls (trace s1) = transport_calls (trace s2) /\
  wire s1 = wire s2 /\
  stored_values (trace s1) = stored_values (trace s2) /\
  mem s1 (ptr_add example_write_buf 0) = mem s2 (ptr_add example_write_buf 0) /\
  fst (doit LittleEndian example_read_buf example_write_buf
            (boot (example_mem LittleEndian)))
  = fst (doit LittleEndian example_read_buf example_write_buf
              (boot (example_mem_other LittleEndian))).
Proof.
  apply (behaviour_depends_on_command_and_range_only LittleEndian
           (example_mem LittleEndian) (example_mem_other LittleEndian)
           example_read_buf example_write_buf
           example_read_buf example_write_buf).
  - intros i Hi.
    assert (Hc : i = 4 \/ i = 5 \/ i = 6 \/ i = 7 \/
                 i = 8 \/ i = 9 \/ i = 10 \/ i = 11) by lia.
    repeat (destruct Hc as [-> | Hc]; [vm_compute; reflexivity |]).
    subst i. vm_compute. reflexivity.
  - replace (cmd_size LittleEndian (example_mem LittleEndian) example_read_buf)
      with 4 by (vm_compute; reflexivity).
    intros i Hi.
    assert (Hc : i = 0 \/ i = 1 \/ i = 2 \/ i = 3) by lia.
    repeat (destruct Hc as [-> | Hc]; [vm_compute; reflexivity |]).
    subst i. vm_compute. reflexivity.
Defined.

(** The register test the specification describes, run in the model: every
    saved register poisoned before the call, a callee that overwrites them
    all. *)
Example start_restores_poisoned_registers :
  let c' := snd (fst (_start LittleEndian 0x4000 scrub_regs
                             example_read_buf example_write_buf
                             example_cpu (boot (example_mem LittleEndian)))) in
  map (regs c') saved_regs = map example_regs saved_regs /\
  regs c' r0 = 0 /\ regs c' r1 = 0xDEAD /\
  stack c' = [0x51; 0x52].
Proof. vm_compute. repeat split. Qed.


(** * Further properties of the payload *)

Lemma read_bytes_4 (m : memory) (p : Z) :
  read_bytes m p 4 =
  [m (ptr_add p 0); m (ptr_add p 1); m (ptr_add p 2); m (ptr_add p 3)].
Proof. reflexivity. Qed.

Lemma word_of_bytes_inj (e : endianness) (b1 b2 : list byte) :
  length b1 = length b2 ->
  word_of_bytes e b1 = word_of_bytes e b2 -> b1 = b2.
Proof.
  intros Hlen H. destruct e; simpl in H.
  - now apply le_combine_inj.
  - apply le_combine_inj in H; [| now rewrite !length_rev].
    apply (f_equal (@rev byte)) in H. now rewrite !rev_involutive in H.
Qed.

Lemma load32_inj (e : endianness) (m1 m2 : memory) (p1 p2 : Z) :
  load32 e m1 p1 = load32 e m2 p2 ->
  forall i, 0 <= i < 4 -> m1 (ptr_add p1 i) = m2 (ptr_add p2 i).
Proof.
  unfold load32. intros H.
  apply word_of_bytes_inj in H; [| now rewrite !read_bytes_length].
  rewrite !read_bytes_4 in H. injection H as H0 H1 H2 H3.
  intros i Hi.
  assert (Hc : i = 0 \/ i = 1 \/ i = 2 \/ i = 3) by lia.
  destruct Hc as [-> | [-> | [-> | ->]]]; assumption.
Qed.



(** The second of two runs, in terms of the first. *)
Lemma invoke_twice_run (e : endianness) (m : memory) (read_buf write_buf : Z) :
  invoke_twice e read_buf write_buf (boot m) =
  doit e read_buf write_buf (after_doit e m read_buf write_buf).
Proof.
  unfold invoke_twice, bind, after_doit.
  destruct (doit e read_buf write_buf (boot m)) as [r s1]. reflexivity.
Qed.

(** X1.  Host encoding and payload decoding are inverse to each other: for
    every 32-bit address [A] and count [N], in either byte order and behind
    any four header bytes, the command buffer the host lays out makes [doit]
    call [send_many] with exactly [A] and [N], after the greeting, and
    return 0. *)
Theorem laid_out_command_is_served
  (e : endianness) (m : memory) (read_buf write_buf : Z)
  (header : list byte) (A N : Z) :
  length header = 4%nat ->
  0 <= A < ptr_modulus ->
  0 <= N < ptr_modulus ->
  let m0 := layout_command e m read_buf header A N in
  transport_calls (trace (after_doit e m0 read_buf write_buf)) =
    [EvSendSingle greeting sizeof_greeting; EvSendMany A N] /\
  wire (after_doit e m0 read_buf write_buf) =
    [greeting; read_bytes m0 A (Z.to_nat N)] /\
  fst (doit e read_buf write_buf (boot m0)) = 0.
Proof.
  intros Hh HA HN m0.
  destruct (layout_command_fields e m read_buf header A N Hh) as [FA FN].
  assert (EA : cmd_addr e m0 read_buf = A)
    by (unfold cmd_addr; now apply load32_of_bytes).
  assert (EN : cmd_size e m0 read_buf = N)
    by (unfold cmd_size; now apply load32_of_bytes).
  rewrite after_doit_eq, doit_run. cbn [trace wire fst mem boot].
  rewrite EA, EN. repeat split.
Qed.

Lemma laid_out_command_is_served_witness :
  let m0 := layout_command BigEndian (fun _ => Byte.x5a) example_read_buf
                           example_header 0x1000 4 in
  transport_calls (trace (after_doit BigEndian m0 example_read_buf
                                     example_write_buf)) =
    [EvSendSingle greeting sizeof_greeting; EvSendMany 0x1000 4] /\
  wire (after_doit BigEndian m0 example_read_buf example_write_buf) =
    [greeting; read_bytes m0 0x1000 (Z.to_nat 4)] /\
  fst (doit BigEndian example_read_buf example_write_buf (boot m0)) = 0.
Proof.
  apply (laid_out_command_is_served BigEndian (fun _ => Byte.x5a)
           example_read_buf example_write_buf example_header 0x1000 4).
  - reflexivity.
  - unfold ptr_modulus. lia.
  - unfold ptr_modulus. lia.
Defined.

(** X2.  Decoding loses nothing: two command buffers that decode to the
    same (address, count) pair hold the same eight bytes at offsets
    [4,12). *)
Theorem decode_determines_field_bytes
  (e : endianness) (m1 m2 : memory) (read_buf1 read_buf2 : Z) :
  fst (decode e read_buf1 (boot m1)) = fst (decode e read_buf2 (boot m2)) ->
  forall i, 4 <= i < 12 ->
            m1 (ptr_add read_buf1 i) = m2 (ptr_add read_buf2 i).
Proof.
  rewrite !decode_run. cbn [fst mem boot]. unfold cmd_addr, cmd_size.
  intros H i Hi. injection H as HA HN.
  destruct (Z_lt_ge_dec i 8) as [Hlt | Hge].
  - pose proof (load32_inj e m1 m2 _ _ HA (i - 4) ltac:(lia)) as Hb.
    rewrite !ptr_add_add in Hb. now replace (4 + (i - 4)) with i in Hb by lia.
  - pose proof (load32_inj e m1 m2 _ _ HN (i - 8) ltac:(lia)) as Hb.
    rewrite !ptr_add_add in Hb. now replace (8 + (i - 8)) with i in Hb by lia.
Qed.

Lemma decode_determines_field_bytes_witness :
  example_mem LittleEndian (ptr_add example_read_buf 9)
  = example_mem_other LittleEndian (ptr_add example_read_buf 9).
Proof.
  apply (decode_determines_field_bytes LittleEndian
           (example_mem LittleEndian) (example_mem_other LittleEndian)
           example_read_buf example_read_buf).
  - vm_compute. reflexivity.
  - lia.
Defined.

(** X3.  The decoded address and count are unsigned 32-bit values in either
    byte order: whatever the eight field bytes are, both lie in
    [0, 2^32), so a count field of all-ones bytes is the largest count and
    never a negative one. *)
Theorem decoded_fields_are_unsigned_words
  (e : endianness) (m : memory) (read_buf : Z) :
  let r := fst (decode e read_buf (boot m)) in
  0 <= fst r < 2 ^ 32 /\ 0 <= snd r < 2 ^ 32 /\
  ((forall i, 8 <= i < 12 -> m (ptr_add read_buf i) = Byte.xff) ->
   snd r = 2 ^ 32 - 1).
Proof.
  intros r. subst r. rewrite decode_run. cbn [fst snd mem boot].
  split; [apply cmd_addr_range |]. split; [apply cmd_size_range |].
  intros Hff. unfold cmd_size, load32. rewrite read_bytes_4, !ptr_add_add.
  rewrite !Hff by lia. now destruct e.
Qed.

(** X4.  The dump is taken before the status byte is written: when the
    status byte lies inside the range being dumped, at offset [k] from the
    target address, byte [k] of the bulk frame is the value memory held
    there at invocation, while memory holds 0 there once [doit] has
    returned. *)
Theorem dump_shows_status_byte_before_write
  (e : endianness) (m : memory) (read_buf write_buf k : Z) :
  0 <= k < cmd_size e m read_buf ->
  ptr_add (cmd_addr e m read_buf) k = ptr_add write_buf 0 ->
  let s := after_doit e m read_buf write_buf in
  (exists bulk,
      wire s = [greeting; bulk] /\
      nth_error bulk (Z.to_nat k) = Some (m (ptr_add write_buf 0))) /\
  mem s (ptr_add write_buf 0) = Byte.x00.
Proof.
  intros Hk Halias s. subst s. rewrite after_doit_eq. cbn [wire mem].
  split; [| apply store8_same].
  eexists. split; [reflexivity |].
  rewrite read_bytes_nth by lia.
  rewrite Z2Nat.id by lia. now rewrite Halias.
Qed.

Lemma dump_shows_status_byte_before_write_witness :
  let s := after_doit LittleEndian (example_mem_self LittleEndian)
                      example_read_buf example_write_buf in
  (exists bulk,
      wire s = [greeting; bulk] /\
      nth_error bulk (Z.to_nat 0)
      = Some (example_mem_self LittleEndian (ptr_add example_write_buf 0))) /\
  mem s (ptr_add example_write_buf 0) = Byte.x00.
Proof.
  apply (dump_shows_status_byte_before_write LittleEndian
           (example_mem_self LittleEndian)
           example_read_buf example_write_buf 0).
  - split; [lia | vm_compute; reflexivity].
  - vm_compute. reflexivity.
Defined.

(** X5.  A second invocation with the same buffers changes no memory: after
    two runs every byte of memory is what it was after the first run,
    whatever the buffers overlap with. *)
Theorem second_invocation_keeps_memory
  (e : endianness) (m : memory) (read_buf write_buf a : Z) :
  mem (snd (invoke_twice e read_buf write_buf (boot m))) a
  = mem (after_doit e m read_buf write_buf) a.
Proof.
  rewrite invoke_twice_run, doit_run, after_doit_eq. cbn [snd mem].
  unfold store8. now destruct (a =? ptr_add write_buf 0).
Qed.





(** The separation X6 asks for is needed: with the status byte on the
    count field, the second run is asked for a different count. *)
Example status_write_into_count_changes_second_run :
  cmd_size LittleEndian (example_mem LittleEndian) example_read_buf = 4 /\
  cmd_size LittleEndian
    (mem (after_doit LittleEndian (example_mem LittleEndian)
                     example_read_buf (example_read_buf + 8)))
    example_read_buf = 0.
Proof. split; vm_compute; reflexivity. Qed.

(** X8.  One invocation puts exactly [sizeof(greeting) + N] = [4 + N] bytes
    on the link, [N] being the count in the command: the host has to read
    four bytes of greeting and then the [N] bytes it asked for. *)
Theorem bytes_on_link
  (e : endianness) (m : memory) (read_buf write_buf : Z) :
  Z.of_nat (length (concat (wire (after_doit e m read_buf write_buf))))
  = 4 + cmd_size e m read_buf.
Proof.
  rewrite after_doit_eq. cbn [wire concat].
  rewrite !length_app, read_bytes_length. cbn [length].
  change (length greeting) with 4%nat.
  pose proof (cmd_size_range e m read_buf). lia.
Qed.

